(** * cudf aggregation kinds: target types, validity and dispatch

    A shallow embedding of [cpp/include/cudf/detail/aggregation/aggregation.hpp]:
    the [aggregation::Kind] enumeration, the descriptors derived from
    [aggregation], the [target_type_impl] trait with its partial
    specializations, [is_valid_aggregation], and the two dispatchers
    [aggregation_dispatcher] and [dispatch_type_and_aggregation]. *)

From Stdlib Require Import List String ZArith Bool Lia.
From Stdlib Require Import SpecFloat.
Import ListNotations.
Local Open Scope Z_scope.


(* ===================================================================== *)
(** ** The data model *)
(* ===================================================================== *)

(** [aggregation::Kind], in declaration order. *)
Inductive Kind : Set :=
| SUM | MIN | MAX | COUNT | MEAN | MEDIAN | QUANTILE | ARGMAX | ARGMIN
| PTX | CUDA.

(** The integer value of each enumerator: no enumerator has an initializer,
    so they count up from zero. *)
Definition Kind_value (k : Kind) : Z :=
  match k with
  | SUM => 0 | MIN => 1 | MAX => 2 | COUNT => 3 | MEAN => 4 | MEDIAN => 5
  | QUANTILE => 6 | ARGMAX => 7 | ARGMIN => 8 | PTX => 9 | CUDA => 10
  end.

Definition Kind_eqb (a b : Kind) : bool := Kind_value a =? Kind_value b.

Definition all_kinds : list Kind :=
  [SUM; MIN; MAX; COUNT; MEAN; MEDIAN; QUANTILE; ARGMAX; ARGMIN; PTX; CUDA].

(** The C++ types the trait is instantiated at and resolves to. Besides the
    fundamental types it has the timestamp types of the column type system,
    arbitrary other class types (named), and the specializations of the
    class template [target_type_impl] themselves, which are types too. *)
Inductive int_width : Set := W8 | W16 | W32 | W64.

Inductive timestamp_unit : Set := ts_D | ts_s | ts_ms | ts_us | ts_ns.

Inductive cpp_type : Set :=
| t_void
| t_bool
| t_int (signed : bool) (w : int_width)
| t_float
| t_double
| t_timestamp (u : timestamp_unit)
| t_class (name : string)
| t_target_type_impl (Source : cpp_type) (k : Kind).

Definition int32_t : cpp_type := t_int true W32.
Definition int64_t : cpp_type := t_int true W64.

(** Modelled from the spec: [cudf::size_type] (declared in cudf/types.hpp,
    which is not among the sources) is "the engine's native index/count
    type", a 32-bit signed integer. *)
Definition size_type : cpp_type := int32_t.

(** [std::is_void], [std::is_integral] and [std::is_floating_point]. *)
Definition is_void (T : cpp_type) : bool :=
  match T with t_void => true | _ => false end.

Definition is_integral (T : cpp_type) : bool :=
  match T with t_bool | t_int _ _ => true | _ => false end.

Definition is_floating_point (T : cpp_type) : bool :=
  match T with t_float | t_double => true | _ => false end.

(** Modelled from the spec: [cudf::is_timestamp] (declared in
    cudf/utilities/traits.hpp, which is not among the sources) holds of
    exactly the "timestamp variants" of the column type system. *)
Definition is_timestamp (T : cpp_type) : bool :=
  match T with t_timestamp _ => true | _ => false end.

(* ===================================================================== *)
(** ** The target-type trait *)
(* ===================================================================== *)

(** One partial specialization [target_type_impl<Source, k, Enable>]: the
    kind it is written for, whether its third argument substitutes to the
    default [void] for a given [Source] (always, when it has none; the
    condition of its [std::enable_if_t] otherwise), and its member [type]. *)
Record partial_specialization : Set := {
  ps_kind   : Kind;
  ps_enable : cpp_type -> bool;
  ps_type   : cpp_type -> cpp_type
}.

Definition always (_ : cpp_type) : bool := true.

(** The partial specializations, in the order of the header. *)
Definition target_type_specializations : list partial_specialization :=
  [ {| ps_kind := MIN;      ps_enable := always;
       ps_type := fun Source => Source |};
    {| ps_kind := MAX;      ps_enable := always;
       ps_type := fun Source => Source |};
    {| ps_kind := COUNT;    ps_enable := always;
       ps_type := fun _ => size_type |};
    {| ps_kind := MEAN;     ps_enable := always;
       ps_type := fun _ => t_double |};
    {| ps_kind := SUM;      ps_enable := is_integral;
       ps_type := fun _ => int64_t |};
    {| ps_kind := SUM;      ps_enable := is_floating_point;
       ps_type := fun Source => Source |};
    {| ps_kind := SUM;      ps_enable := is_timestamp;
       ps_type := fun Source => Source |};
    {| ps_kind := QUANTILE; ps_enable := always;
       ps_type := fun _ => t_double |};
    {| ps_kind := MEDIAN;   ps_enable := always;
       ps_type := fun Source => t_target_type_impl Source QUANTILE |};
    {| ps_kind := ARGMAX;   ps_enable := always;
       ps_type := fun _ => size_type |};
    {| ps_kind := ARGMIN;   ps_enable := always;
       ps_type := fun _ => size_type |} ].

Definition ps_matches (Source : cpp_type) (k : Kind)
    (p : partial_specialization) : bool :=
  Kind_eqb (ps_kind p) k && ps_enable p Source.

(** [target_type_impl<Source, k>::type]. The specializations that match are
    collected; with none the primary template gives [void], with one that
    one gives its [type], and with several (none of them is more
    specialized than another) the instantiation is ambiguous and the
    program ill-formed: [None]. *)
Definition target_type_impl (Source : cpp_type) (k : Kind) : option cpp_type :=
  match filter (ps_matches Source k) target_type_specializations with
  | [] => Some t_void
  | [p] => Some (ps_type p Source)
  | _ :: _ :: _ => None
  end.

(** The alias [target_type_t<Source, k>]. *)
Definition target_type_t (Source : cpp_type) (k : Kind) : option cpp_type :=
  target_type_impl Source k.

(** [is_valid_aggregation<Source, k>()]: [not std::is_void<target_type_t<Source, k>>::value]. *)
Definition is_valid_aggregation (Source : cpp_type) (k : Kind) : option bool :=
  match target_type_t Source k with
  | Some T => Some (negb (is_void T))
  | None => None
  end.

(** The sentinels, values of [size_type]. *)
Definition ARGMAX_SENTINEL : Z := -1.
Definition ARGMIN_SENTINEL : Z := -1.

(* ===================================================================== *)
(** ** Descriptors *)
(* ===================================================================== *)

(** What a call yields: a value, a [cudf::logic_error] thrown on the host,
    a device thread stopped by a failed [release_assert], or
    [std::terminate] after an exception left a [noexcept] function. *)
Inductive outcome (R : Type) : Type :=
| Returned (r : R)
| Thrown (what : string)
| Aborted (what : string)
| Terminated.

Arguments Returned {R} r.
Arguments Thrown {R} what.
Arguments Aborted {R} what.
Arguments Terminated {R}.

(** Modelled from the spec: [experimental::interpolation] (declared in
    cudf/types.hpp, which is not among the sources), "enumerated: nearest,
    linear, lower, higher, midpoint". *)
Inductive interpolation : Set := NEAREST | LINEAR | LOWER | HIGHER | MIDPOINT.

(** The base class [aggregation] and its constructor. *)
Record aggregation : Set := { kind : Kind }.

Definition aggregation_ctor (a : Kind) : aggregation := {| kind := a |}.

(** [detail::quantile_aggregation]; a [double] is an IEEE 754 binary64
    value. *)
Definition double : Set := spec_float.

Record quantile_aggregation : Set := {
  quantile_base  : aggregation;
  _quantiles     : list double;
  _interpolation : interpolation
}.

(** The constructor of [quantile_aggregation]: three member initializers
    and an empty body. *)
Definition quantile_aggregation_ctor (q : list double) (i : interpolation)
    : outcome quantile_aggregation :=
  Returned {| quantile_base := aggregation_ctor QUANTILE;
              _quantiles := q;
              _interpolation := i |}.

(* ===================================================================== *)
(** ** Dispatch *)
(* ===================================================================== *)

(** The two compilations of the header: [__CUDA_ARCH__] is undefined on the
    host pass and defined on the device pass. *)
Inductive compilation : Set := Host | Device.

(** A call in a state of type [St] (whatever the operation bodies touch). *)
Definition call (St R : Type) : Type := St -> outcome R * St.

(** Modelled from the spec: [CUDF_FAIL] (cudf/utilities/error.hpp, not among
    the sources) reports "a structured error on the control-flow path". *)
Definition CUDF_FAIL {St R : Type} (what : string) : call St R :=
  fun s => (Thrown what, s).

(** Modelled from the spec: [release_assert] (not among the sources) on a
    false condition is "an unrecoverable abort on the accelerator path". *)
Definition release_assert_false {St R : Type} (what : string) : call St R :=
  fun s => (Aborted what, s).

(** The [default:] branch of [aggregation_dispatcher]. *)
Definition unsupported_aggregation {St R : Type} (target : compilation)
    : call St R :=
  match target with
  | Host => CUDF_FAIL "Unsupported aggregation."
  | Device => release_assert_false "Unsuported aggregation."
  end.

(** [aggregation_dispatcher(k, f, args...)]: [k] is the value held by the
    [aggregation::Kind] object, [f K] stands for [f.template operator()<K>]. *)
Definition aggregation_dispatcher {St A R : Type} (target : compilation)
    (k : Z) (f : Kind -> A -> call St R) (args : A) : call St R :=
  if k =? Kind_value SUM then f SUM args
  else if k =? Kind_value MIN then f MIN args
  else if k =? Kind_value MAX then f MAX args
  else if k =? Kind_value COUNT then f COUNT args
  else if k =? Kind_value MEAN then f MEAN args
  else if k =? Kind_value MEDIAN then f MEDIAN args
  else if k =? Kind_value QUANTILE then f QUANTILE args
  else if k =? Kind_value ARGMAX then f ARGMAX args
  else if k =? Kind_value ARGMIN then f ARGMIN args
  else unsupported_aggregation target.

(** The kinds that have a [case] label in [aggregation_dispatcher]. *)
Definition dispatched_kinds : list Kind :=
  [SUM; MIN; MAX; COUNT; MEAN; MEDIAN; QUANTILE; ARGMAX; ARGMIN].

(** Whether the value [k] of a [Kind] object meets one of these labels. *)
Definition value_is_dispatched (k : Z) : bool :=
  existsb (fun K => k =? Kind_value K) dispatched_kinds.

Definition is_dispatched (K : Kind) : bool :=
  value_is_dispatched (Kind_value K).

(** A [noexcept] function: an exception that would leave it ends the
    program. *)
Definition noexcept {St R : Type} (c : call St R) : call St R :=
  fun s =>
    match c s with
    | (Thrown _, s') => (Terminated, s')
    | r => r
    end.

(** [dispatch_aggregation<Element>::operator()<k>(f, args...)]. *)
Definition dispatch_aggregation {St A R : Type} (Element : cpp_type)
    (k : Kind) (fargs : (cpp_type -> Kind -> A -> call St R) * A)
    : call St R :=
  noexcept (fst fargs Element k (snd fargs)).

(** [dispatch_source::operator()<Element>(k, f, args...)]. *)
Definition dispatch_source {St A R : Type} (target : compilation)
    (Element : cpp_type)
    (kfargs : Z * ((cpp_type -> Kind -> A -> call St R) * A)) : call St R :=
  noexcept (aggregation_dispatcher target (fst kfargs)
              (dispatch_aggregation Element) (snd kfargs)).

Section DoubleDispatch.

(** The type tags of the column type system and the C++ type each one
    stands for (cudf/types.hpp and cudf/utilities/type_dispatcher.hpp are
    not among the sources). *)
Variable data_type : Type.
Variable type_of : data_type -> cpp_type.

(** Modelled from the spec: [type_dispatcher], the "type-tag dispatch
    primitive" of the column type system, resolves a runtime element-type
    tag to its compile-time identity and invokes the callable
    instantiated at it, forwarding the arguments. *)
Definition type_dispatcher {St B R : Type} (dtype : data_type)
    (f : cpp_type -> B -> call St R) (args : B) : call St R :=
  f (type_of dtype) args.

(** [dispatch_type_and_aggregation(type, k, f, args...)]. *)
Definition dispatch_type_and_aggregation {St A R : Type}
    (target : compilation) (type : data_type) (k : Z)
    (f : cpp_type -> Kind -> A -> call St R) (args : A) : call St R :=
  type_dispatcher type (dispatch_source target) (k, (f, args)).

End DoubleDispatch.

(** Instrumentation for statements about which bodies run: [traced f] is
    [f] with every invoked specialization appended to a log kept next to
    the state. *)
Definition traced {St A R : Type} (f : Kind -> A -> call St R)
    : Kind -> A -> call (list Kind * St) R :=
  fun K args ls =>
    let '(o, s') := f K args (snd ls) in (o, (fst ls ++ [K], s')).

(* ===================================================================== *)
(** ** The operator trait and the user-defined descriptor *)
(* ===================================================================== *)

(** The binary operators of cudf/detail/utilities/device_operators.cuh, as
    the class types they are. *)
Definition DeviceSum : cpp_type := t_class "DeviceSum".
Definition DeviceMin : cpp_type := t_class "DeviceMin".
Definition DeviceMax : cpp_type := t_class "DeviceMax".

(** [corresponding_operator<k>::type]: three explicit specializations, and
    [void] from the primary template for every other kind. *)
Definition corresponding_operator (k : Kind) : cpp_type :=
  match k with
  | MIN => DeviceMin
  | MAX => DeviceMax
  | SUM => DeviceSum
  | _ => t_void
  end.

(** The alias [corresponding_operator_t<k>]. *)
Definition corresponding_operator_t (k : Kind) : cpp_type :=
  corresponding_operator k.

(** [detail::udf_aggregation], over the type of the tags [data_type] of
    cudf/types.hpp. *)
Record udf_aggregation (data_type : Type) : Type := {
  udf_base     : aggregation;
  source       : string;
  _output_type : data_type
}.

Arguments udf_base {data_type} _.
Arguments source {data_type} _.
Arguments _output_type {data_type} _.

(** The constructor of [udf_aggregation]: three member initializers and an
    empty body. *)
Definition udf_aggregation_ctor {data_type : Type} (type : Kind)
    (user_defined_aggregator : string) (output_type : data_type)
    : outcome (udf_aggregation data_type) :=
  Returned {| udf_base := aggregation_ctor type;
              source := user_defined_aggregator;
              _output_type := output_type |}.

(* ===================================================================== *)
(** ** The resolver, kind by kind *)
(* ===================================================================== *)

Section Resolver.

Variable T : cpp_type.

Lemma target_type_MIN : target_type_t T MIN = Some T.
Proof. reflexivity. Qed.

Lemma target_type_MAX : target_type_t T MAX = Some T.
Proof. reflexivity. Qed.

Lemma target_type_COUNT : target_type_t T COUNT = Some size_type.
Proof. reflexivity. Qed.

Lemma target_type_MEAN : target_type_t T MEAN = Some t_double.
Proof. reflexivity. Qed.

Lemma target_type_QUANTILE : target_type_t T QUANTILE = Some t_double.
Proof. reflexivity. Qed.

Lemma target_type_MEDIAN :
  target_type_t T MEDIAN = Some (t_target_type_impl T QUANTILE).
Proof. reflexivity. Qed.

Lemma target_type_ARGMAX : target_type_t T ARGMAX = Some size_type.
Proof. reflexivity. Qed.

Lemma target_type_ARGMIN : target_type_t T ARGMIN = Some size_type.
Proof. reflexivity. Qed.

Lemma target_type_PTX : target_type_t T PTX = Some t_void.
Proof. reflexivity. Qed.

Lemma target_type_CUDA : target_type_t T CUDA = Some t_void.
Proof. reflexivity. Qed.

(** For SUM the three conditions decide; they exclude one another, so the
    instantiation is never ambiguous. *)
Lemma sum_conditions_exclusive :
  (is_integral T && is_floating_point T = false)%bool /\
  (is_integral T && is_timestamp T = false)%bool /\
  (is_floating_point T && is_timestamp T = false)%bool.
Proof. destruct T; repeat split; reflexivity. Qed.

Lemma target_type_SUM :
  target_type_t T SUM =
  Some (if is_integral T then int64_t
        else if is_floating_point T then T
        else if is_timestamp T then T
        else t_void).
Proof. destruct T; reflexivity. Qed.

(** Instantiating the trait never fails. *)
Lemma target_type_total (K : Kind) : exists R, target_type_t T K = Some R.
Proof.
  destruct K; try (eexists; reflexivity).
  rewrite target_type_SUM. eexists; reflexivity.
Qed.

End Resolver.

(** Concrete instantiations. *)
Example sum_of_int32 : target_type_t int32_t SUM = Some int64_t.
Proof. reflexivity. Qed.

Example sum_of_float : target_type_t t_float SUM = Some t_float.
Proof. reflexivity. Qed.

Example sum_of_uint8 : target_type_t (t_int false W8) SUM = Some int64_t.
Proof. reflexivity. Qed.

Example sum_of_void : target_type_t t_void SUM = Some t_void.
Proof. reflexivity. Qed.

Example mean_of_int32 : target_type_t int32_t MEAN = Some t_double.
Proof. reflexivity. Qed.

Example count_of_double : target_type_t t_double COUNT = Some int32_t.
Proof. reflexivity. Qed.

Example median_of_double_is_valid :
  is_valid_aggregation t_double MEDIAN = Some true.
Proof. reflexivity. Qed.

Example sum_of_string_is_not_valid :
  is_valid_aggregation (t_class "cudf::string_view") SUM = Some false.
Proof. reflexivity. Qed.

(** A trait specialization, as a type, is not [void]. *)
Lemma trait_is_not_void (T : cpp_type) (K : Kind) :
  is_void (t_target_type_impl T K) = false.
Proof. reflexivity. Qed.

(** C1: at element type [int32_t], MEDIAN resolves to the class
    [target_type_impl<int32_t, QUANTILE>] itself, whereas QUANTILE resolves
    to [double]; so the target of MEDIAN is not [double], and not that of
    QUANTILE. *)
Theorem median_int32_resolves_to_trait :
  target_type_t int32_t MEDIAN = Some (t_target_type_impl int32_t QUANTILE) /\
  target_type_t int32_t QUANTILE = Some t_double /\
  target_type_t int32_t MEDIAN <> Some t_double /\
  target_type_t int32_t MEDIAN <> target_type_t int32_t QUANTILE.
Proof.
  rewrite target_type_MEDIAN, target_type_QUANTILE.
  split; [reflexivity|]. split; [reflexivity|]. split; discriminate.
Qed.

(** The same at every element type. *)
Lemma median_never_double (T : cpp_type) :
  target_type_t T MEDIAN <> Some t_double.
Proof. rewrite target_type_MEDIAN. discriminate. Qed.

(** C2: for every element type and kind the trait resolves to some type
    [R], and [is_valid_aggregation] is true exactly when [R] is not [void]
    and false exactly when it is. *)
Theorem is_valid_aggregation_iff_mapped (T : cpp_type) (K : Kind) :
  exists R : cpp_type,
    target_type_t T K = Some R /\
    (is_valid_aggregation T K = Some true <-> R <> t_void) /\
    (is_valid_aggregation T K = Some false <-> R = t_void).
Proof.
  destruct (target_type_total T K) as [R HR].
  exists R. unfold is_valid_aggregation. rewrite HR.
  split; [reflexivity|].
  destruct R; cbn; split; split; intro H;
    first [ reflexivity | discriminate | congruence ].
Qed.

(** C3: MIN and MAX keep the element type. *)
Theorem min_max_keep_element_type (T : cpp_type) :
  target_type_t T MIN = Some T /\ target_type_t T MAX = Some T.
Proof. split; [apply target_type_MIN | apply target_type_MAX]. Qed.

(** C4: SUM resolves to [int64_t] at an integral element type, to the
    element type itself at a floating-point or a timestamp element type,
    and to [void] (no mapping) at every other element type. *)
Theorem sum_target_type (T : cpp_type) :
  (is_integral T = true -> target_type_t T SUM = Some int64_t) /\
  (is_floating_point T = true -> target_type_t T SUM = Some T) /\
  (is_timestamp T = true -> target_type_t T SUM = Some T) /\
  (is_integral T = false -> is_floating_point T = false ->
   is_timestamp T = false -> target_type_t T SUM = Some t_void).
Proof.
  rewrite target_type_SUM.
  destruct (sum_conditions_exclusive T) as (Hif & Hit & Hft).
  repeat split.
  - intros ->. reflexivity.
  - intros H. rewrite H, andb_true_r in Hif. rewrite Hif, H. reflexivity.
  - intros H. rewrite H, andb_true_r in Hit, Hft. rewrite Hit, Hft, H.
    reflexivity.
  - intros -> -> ->. reflexivity.
Qed.

Lemma sum_target_type_witness :
  target_type_t int32_t SUM = Some int64_t /\
  target_type_t t_bool SUM = Some int64_t /\
  target_type_t t_double SUM = Some t_double /\
  target_type_t (t_timestamp ts_ms) SUM = Some (t_timestamp ts_ms) /\
  target_type_t (t_class "cudf::string_view") SUM = Some t_void.
Proof.
  split; [|split; [|split; [|split]]].
  - apply (proj1 (sum_target_type int32_t)). reflexivity.
  - apply (proj1 (sum_target_type t_bool)). reflexivity.
  - apply (proj1 (proj2 (sum_target_type t_double))). reflexivity.
  - apply (proj1 (proj2 (proj2 (sum_target_type (t_timestamp ts_ms))))).
    reflexivity.
  - apply (proj2 (proj2 (proj2 (sum_target_type (t_class "cudf::string_view")))));
      reflexivity.
Defined.

(** C5: COUNT resolves to [size_type], MEAN and QUANTILE to [double],
    whatever the element type. *)
Theorem count_mean_quantile_target_type (T : cpp_type) :
  target_type_t T COUNT = Some size_type /\
  target_type_t T MEAN = Some t_double /\
  target_type_t T QUANTILE = Some t_double.
Proof.
  split; [apply target_type_COUNT|].
  split; [apply target_type_MEAN | apply target_type_QUANTILE].
Qed.

(** C6: ARGMIN and ARGMAX resolve to [size_type] whatever the element type;
    both sentinels are -1, and no non-negative index equals either. *)
Theorem argmin_argmax_index_and_sentinel :
  (forall T : cpp_type,
     target_type_t T ARGMIN = Some size_type /\
     target_type_t T ARGMAX = Some size_type) /\
  ARGMIN_SENTINEL = -1 /\
  ARGMAX_SENTINEL = -1 /\
  (forall i : Z, 0 <= i -> i <> ARGMIN_SENTINEL /\ i <> ARGMAX_SENTINEL).
Proof.
  split.
  { intro T. split; [apply target_type_ARGMIN | apply target_type_ARGMAX]. }
  unfold ARGMIN_SENTINEL, ARGMAX_SENTINEL.
  split; [reflexivity|]. split; [reflexivity|].
  intros i Hi. split; lia.
Qed.

Lemma argmin_argmax_index_and_sentinel_witness :
  target_type_t t_float ARGMIN = Some size_type /\
  0 <> ARGMIN_SENTINEL /\ 0 <> ARGMAX_SENTINEL.
Proof.
  split.
  - apply (proj1 argmin_argmax_index_and_sentinel t_float).
  - apply (proj2 (proj2 (proj2 argmin_argmax_index_and_sentinel)) 0). lia.
Defined.

(* ===================================================================== *)
(** ** The dispatchers *)
(* ===================================================================== *)

Section Dispatcher.

Context {St A R : Type}.
Variable target : compilation.
Variable f : Kind -> A -> call St R.
Variable args : A.

(** A kind with a [case] label reaches the body instantiated for it. *)
Lemma aggregation_dispatcher_case (K : Kind) :
  is_dispatched K = true ->
  aggregation_dispatcher target (Kind_value K) f args = f K args.
Proof. destruct K; intro H; first [reflexivity | discriminate H]. Qed.

(** Every other value reaches the [default:] branch. *)
Lemma aggregation_dispatcher_default (k : Z) :
  value_is_dispatched k = false ->
  aggregation_dispatcher target k f args = unsupported_aggregation target.
Proof.
  unfold value_is_dispatched, dispatched_kinds, aggregation_dispatcher.
  cbn [existsb Kind_value]. intro H.
  repeat (apply orb_false_iff in H; destruct H as [?E H]).
  now rewrite E, E0, E1, E2, E3, E4, E5, E6, E7.
Qed.

(** The [default:] branch leaves the state as it was. *)
Lemma unsupported_aggregation_run (s : St) :
  @unsupported_aggregation St R target s =
  (match target with
   | Host => Thrown "Unsupported aggregation."
   | Device => Aborted "Unsuported aggregation."
   end, s).
Proof. destruct target; reflexivity. Qed.

End Dispatcher.

Lemma out_of_range_not_dispatched (k : Z) :
  k < 0 \/ 10 < k -> value_is_dispatched k = false.
Proof.
  intro H. unfold value_is_dispatched, dispatched_kinds.
  cbn [existsb Kind_value].
  repeat (apply orb_false_iff; split); try reflexivity; apply Z.eqb_neq; lia.
Qed.

Lemma noexcept_idempotent {St R : Type} (c : call St R) (s : St) :
  noexcept (noexcept c) s = noexcept c s.
Proof.
  unfold noexcept. destruct (c s) as [[r | what | what | ] s']; reflexivity.
Qed.

(** Through both dispatchers a labelled kind reaches the body instantiated
    for the element type of the tag and for the kind. *)
Lemma dispatch_type_and_aggregation_case {St A R : Type}
    (data_type : Type) (type_of : data_type -> cpp_type)
    (target : compilation) (type : data_type) (K : Kind)
    (g : cpp_type -> Kind -> A -> call St R) (args : A) (s : St) :
  is_dispatched K = true ->
  dispatch_type_and_aggregation data_type type_of target type (Kind_value K)
    g args s
  = noexcept (g (type_of type) K args) s.
Proof.
  intro H.
  unfold dispatch_type_and_aggregation, type_dispatcher, dispatch_source.
  cbn [fst snd].
  unfold noexcept at 1.
  rewrite (aggregation_dispatcher_case target _ _ K H).
  unfold dispatch_aggregation. cbn [fst snd].
  fold (noexcept (noexcept (g (type_of type) K args)) s).
  apply noexcept_idempotent.
Qed.

(** X11: a kind with a [case] label reaches exactly the body instantiated
    for it (the call log of the traced body is that one kind), and through
    [dispatch_type_and_aggregation] the body instantiated for the element
    type of the tag and the kind; given to [aggregation_dispatcher]
    directly, a value with no label yields a thrown error on the host and
    an abort on the device, with the state untouched and the call log
    empty. *)
Theorem aggregation_dispatcher_dispatches
    (St A R : Type) (target : compilation)
    (f : Kind -> A -> call St R) (args : A) (s : St) :
  (forall K : Kind, is_dispatched K = true ->
     aggregation_dispatcher target (Kind_value K) f args s = f K args s /\
     aggregation_dispatcher target (Kind_value K) (traced f) args ([], s)
     = (fst (f K args s), ([K], snd (f K args s)))) /\
  (forall (data_type : Type) (type_of : data_type -> cpp_type)
          (type : data_type) (g : cpp_type -> Kind -> A -> call St R)
          (K : Kind),
     is_dispatched K = true ->
     dispatch_type_and_aggregation data_type type_of target type
       (Kind_value K) g args s
     = noexcept (g (type_of type) K args) s) /\
  (forall k : Z, value_is_dispatched k = false ->
     aggregation_dispatcher Host k f args s
     = (Thrown "Unsupported aggregation.", s) /\
     aggregation_dispatcher Device k f args s
     = (Aborted "Unsuported aggregation.", s) /\
     snd (aggregation_dispatcher target k (traced f) args ([], s))
     = ([], s)).
Proof.
  split; [|split].
  - intros K HK. rewrite !aggregation_dispatcher_case by exact HK.
    split; [reflexivity|].
    unfold traced. cbn [fst snd app]. now destruct (f K args s).
  - intros. now apply dispatch_type_and_aggregation_case.
  - intros k Hk. rewrite !aggregation_dispatcher_default by exact Hk.
    rewrite unsupported_aggregation_run. now destruct target.
Qed.

Lemma aggregation_dispatcher_dispatches_witness :
  aggregation_dispatcher Host (Kind_value MEAN)
    (fun K (n : Z) (s : Z) => (Returned K, s + n)) 5 1
  = (Returned MEAN, 6) /\
  dispatch_type_and_aggregation Kind (fun _ => t_double) Host SUM
    (Kind_value ARGMIN)
    (fun T K (n : Z) (s : Z) => (Returned (T, K), s + n)) 5 1
  = (Returned (t_double, ARGMIN), 6) /\
  aggregation_dispatcher Host 999
    (fun K (n : Z) (s : Z) => (Returned K, s + n)) 5 1
  = (Thrown "Unsupported aggregation.", 1).
Proof.
  split; [|split].
  - apply (proj1 (proj1 (aggregation_dispatcher_dispatches Z Z Kind Host
             (fun K n s => (Returned K, s + n)) 5 1) MEAN eq_refl)).
  - apply (proj1 (proj2 (aggregation_dispatcher_dispatches Z Z (cpp_type * Kind)
             Host (fun K n s => (Returned (t_void, K), s + n)) 5 1))
             Kind (fun _ => t_double) SUM
             (fun T K n s => (Returned (T, K), s + n)) ARGMIN eq_refl).
  - apply (proj1 (proj2 (proj2 (aggregation_dispatcher_dispatches Z Z Kind Host
             (fun K n s => (Returned K, s + n)) 5 1)) 999 eq_refl)).
Defined.

(** C7: the double dispatch on the host, given a kind with no [case]
    label (PTX, a member of the enumeration, or the value 999 outside it),
    invokes no body and leaves the state untouched, but its failure is
    [std::terminate] and not a thrown error: the error that
    [aggregation_dispatcher] throws for the same value when called directly
    is raised under the [noexcept] call operator of [dispatch_source]. *)
Theorem double_dispatch_unlabelled_kind_on_host
    (St A R : Type) (data_type : Type) (type_of : data_type -> cpp_type)
    (type : data_type) (g : cpp_type -> Kind -> A -> call St R)
    (args : A) (s : St) :
  dispatch_type_and_aggregation data_type type_of Host type (Kind_value PTX)
    g args s = (Terminated, s) /\
  dispatch_type_and_aggregation data_type type_of Host type 999
    g args s = (Terminated, s) /\
  (forall what : string,
     fst (dispatch_type_and_aggregation data_type type_of Host type
            (Kind_value PTX) g args s) <> Thrown what /\
     fst (dispatch_type_and_aggregation data_type type_of Host type 999
            g args s) <> Thrown what) /\
  aggregation_dispatcher Host (Kind_value PTX) (g (type_of type)) args s
  = (Thrown "Unsupported aggregation.", s) /\
  aggregation_dispatcher Host 999 (g (type_of type)) args s
  = (Thrown "Unsupported aggregation.", s).
Proof.
  assert (E : forall k : Z, value_is_dispatched k = false ->
            dispatch_type_and_aggregation data_type type_of Host type k
              g args s = (Terminated, s)).
  { intros k Hk.
    unfold dispatch_type_and_aggregation, type_dispatcher, dispatch_source,
      noexcept.
    cbn [fst snd].
    rewrite (aggregation_dispatcher_default Host _ _ k Hk). reflexivity. }
  rewrite (E (Kind_value PTX) eq_refl), (E 999 eq_refl).
  rewrite !aggregation_dispatcher_default by reflexivity.
  split; [reflexivity|]. split; [reflexivity|]. split.
  - intro what. split; discriminate.
  - split; reflexivity.
Qed.

(** X1: through [dispatch_type_and_aggregation] a value with no [case]
    label reaches no body and leaves the state untouched; on the host the
    error does not come out as an exception but as [std::terminate], as it
    would leave the [noexcept] call operator of [dispatch_source]; on the
    device it is the abort of [aggregation_dispatcher]. *)
Lemma dispatch_type_and_aggregation_default {St A R : Type}
    (data_type : Type) (type_of : data_type -> cpp_type)
    (type : data_type) (k : Z)
    (g : cpp_type -> Kind -> A -> call St R) (args : A) (s : St) :
  value_is_dispatched k = false ->
  dispatch_type_and_aggregation data_type type_of Host type k g args s
  = (Terminated, s) /\
  dispatch_type_and_aggregation data_type type_of Device type k g args s
  = (Aborted "Unsuported aggregation.", s).
Proof.
  intro H.
  unfold dispatch_type_and_aggregation, type_dispatcher, dispatch_source,
    noexcept.
  cbn [fst snd].
  rewrite !aggregation_dispatcher_default by exact H.
  split; reflexivity.
Qed.

Lemma dispatch_type_and_aggregation_default_witness :
  dispatch_type_and_aggregation Kind (fun _ => int32_t) Host SUM 999
    (fun T K (n : Z) (s : Z) => (Returned (T, K), s + n)) 5 1
  = (Terminated, 1).
Proof.
  apply (proj1 (dispatch_type_and_aggregation_default Kind (fun _ => int32_t)
           SUM 999 (fun T K n s => (Returned (T, K), s + n)) 5 1 eq_refl)).
Defined.

(** C8, as the code has it: PTX and CUDA have no specialization of the
    trait, so at every element type they resolve to [void] and
    [is_valid_aggregation] is false for them. *)
Theorem ptx_cuda_not_valid (T : cpp_type) :
  target_type_t T PTX = Some t_void /\
  target_type_t T CUDA = Some t_void /\
  is_valid_aggregation T PTX = Some false /\
  is_valid_aggregation T CUDA = Some false.
Proof.
  unfold is_valid_aggregation.
  rewrite target_type_PTX, target_type_CUDA.
  split; [reflexivity|]. split; [reflexivity|]. split; reflexivity.
Qed.

(** C8 as stated fails: at [int32_t] neither user-defined kind is reported
    valid. *)
Lemma ptx_cuda_valid_counterexample :
  is_valid_aggregation int32_t PTX <> Some true /\
  is_valid_aggregation int32_t CUDA <> Some true.
Proof. split; discriminate. Qed.

(** C9, as the code has it: the constructor performs no check; whatever the
    fraction list, empty or not, it returns a descriptor of kind QUANTILE
    holding that list and that interpolation. *)
Theorem quantile_aggregation_ctor_total (q : list double) (i : interpolation) :
  exists d : quantile_aggregation,
    quantile_aggregation_ctor q i = Returned d /\
    kind (quantile_base d) = QUANTILE /\
    _quantiles d = q /\
    _interpolation d = i.
Proof.
  eexists. split; [reflexivity|]. split; [reflexivity|]. split; reflexivity.
Qed.

(** C9 as stated fails: with an empty fraction list the constructor returns
    a descriptor, it raises nothing. *)
Lemma quantile_aggregation_empty_counterexample :
  quantile_aggregation_ctor [] LINEAR
  = Returned {| quantile_base := {| kind := QUANTILE |};
                _quantiles := [];
                _interpolation := LINEAR |} /\
  ~ (exists what : string,
       quantile_aggregation_ctor [] LINEAR = Thrown what).
Proof.
  split; [reflexivity|]. intros [what H]. discriminate H.
Qed.

(** C10: PTX and CUDA have no [case] label. Dispatching either takes the
    [default:] branch, as every value outside the enumeration does: a
    thrown error on the host, an abort on the device, the state untouched
    and the call log of the traced body empty. *)
Theorem ptx_cuda_dispatch_unsupported
    (St A R : Type) (target : compilation)
    (f : Kind -> A -> call St R) (args : A) (s : St) :
  (forall K : Kind, K = PTX \/ K = CUDA ->
     aggregation_dispatcher target (Kind_value K) f args
     = unsupported_aggregation target /\
     aggregation_dispatcher Host (Kind_value K) f args s
     = (Thrown "Unsupported aggregation.", s) /\
     aggregation_dispatcher Device (Kind_value K) f args s
     = (Aborted "Unsuported aggregation.", s) /\
     snd (aggregation_dispatcher target (Kind_value K) (traced f) args ([], s))
     = ([], s)) /\
  (forall (K : Kind) (k : Z), K = PTX \/ K = CUDA -> k < 0 \/ 10 < k ->
     aggregation_dispatcher target (Kind_value K) f args s
     = aggregation_dispatcher target k f args s).
Proof.
  assert (HK : forall K, K = PTX \/ K = CUDA ->
                 value_is_dispatched (Kind_value K) = false)
    by (intros K [-> | ->]; reflexivity).
  split.
  - intros K H. apply HK in H.
    rewrite !aggregation_dispatcher_default by exact H.
    rewrite unsupported_aggregation_run.
    split; [reflexivity|]. split; [reflexivity|]. split; [reflexivity|].
    now destruct target.
  - intros K k H Hk. apply HK in H. apply out_of_range_not_dispatched in Hk.
    now rewrite !aggregation_dispatcher_default.
Qed.

Lemma ptx_cuda_dispatch_unsupported_witness :
  aggregation_dispatcher Host (Kind_value PTX)
    (fun K (n : Z) (s : Z) => (Returned K, s + n)) 5 1
  = (Thrown "Unsupported aggregation.", 1) /\
  aggregation_dispatcher Device (Kind_value CUDA)
    (fun K (n : Z) (s : Z) => (Returned K, s + n)) 5 1
  = aggregation_dispatcher Device 999
      (fun K (n : Z) (s : Z) => (Returned K, s + n)) 5 1.
Proof.
  split.
  - apply (proj1 (proj2 (proj1 (ptx_cuda_dispatch_unsupported Z Z Kind Host
             (fun K n s => (Returned K, s + n)) 5 1) PTX (or_introl eq_refl)))).
  - apply (proj2 (ptx_cuda_dispatch_unsupported Z Z Kind Device
             (fun K n s => (Returned K, s + n)) 5 1) CUDA 999
             (or_intror eq_refl)).
    right. lia.
Defined.

(* ===================================================================== *)
(** ** Further properties of the trait *)
(* ===================================================================== *)

(** X3: whatever the element type and the kind, at most one partial
    specialization of [target_type_impl] matches: the instantiation is
    never ambiguous. *)
Theorem specializations_never_ambiguous (T : cpp_type) (K : Kind) :
  (List.length (filter (ps_matches T K) target_type_specializations) <= 1)%nat.
Proof.
  destruct K; cbn; try lia.
  destruct T; cbn; lia.
Qed.

(** X4: the table of [is_valid_aggregation]. MIN and MAX are valid at every
    element type but [void]; SUM at the integral, floating-point and
    timestamp types only; COUNT, MEAN, MEDIAN, QUANTILE, ARGMAX and ARGMIN
    at every element type, [void] included; PTX and CUDA at none. *)
Theorem is_valid_aggregation_table (T : cpp_type) (K : Kind) :
  is_valid_aggregation T K =
  Some (match K with
        | MIN | MAX => negb (is_void T)
        | SUM => is_integral T || is_floating_point T || is_timestamp T
        | COUNT | MEAN | MEDIAN | QUANTILE | ARGMAX | ARGMIN => true
        | PTX | CUDA => false
        end).
Proof.
  unfold is_valid_aggregation.
  destruct K;
    first [ rewrite target_type_SUM; destruct T; reflexivity
          | reflexivity ].
Qed.

(** No type is the trait instantiated at itself. *)
Lemma trait_not_its_source (T : cpp_type) :
  forall K : Kind, t_target_type_impl T K <> T.
Proof.
  induction T as [ | | sg w | | | u | name | T' IH K']; intros K H;
    try discriminate H.
  injection H as H _. exact (IH K' H).
Qed.

(** X5: the target type of an aggregation is a fixed point of the resolver
    for that aggregation (aggregating accumulators needs no further
    accumulator type) for every kind but MEDIAN, and never for MEDIAN. *)
Theorem target_type_fixed_point (T R : cpp_type) (K : Kind) :
  target_type_t T K = Some R ->
  (target_type_t R K = Some R <-> K <> MEDIAN).
Proof.
  intro H. split.
  - intros HR ->. rewrite target_type_MEDIAN in HR.
    injection HR as HR. exact (trait_not_its_source R QUANTILE HR).
  - intro HK. destruct K; try (now elim HK);
      try (cbn in H; injection H as <-; reflexivity).
    rewrite target_type_SUM in H. injection H as <-.
    destruct T; reflexivity.
Qed.

Lemma target_type_fixed_point_witness :
  target_type_t int64_t SUM = Some int64_t /\
  target_type_t (t_target_type_impl t_float QUANTILE) MEDIAN
  <> Some (t_target_type_impl t_float QUANTILE).
Proof.
  split.
  - apply (proj2 (target_type_fixed_point (t_int false W16) int64_t SUM
                    eq_refl)).
    discriminate.
  - intro H.
    apply (proj1 (target_type_fixed_point t_float
                    (t_target_type_impl t_float QUANTILE) MEDIAN eq_refl) H).
    reflexivity.
Defined.

(** X7: a kind that has a corresponding binary operator has a [case] label
    in [aggregation_dispatcher]; at every integral, floating-point or
    timestamp element type it is valid and its target type is again of one
    of these three families; and no other kind has the same operator. *)
Theorem corresponding_operator_kinds (K : Kind) :
  is_void (corresponding_operator_t K) = false ->
  is_dispatched K = true /\
  (forall T : cpp_type,
     is_integral T || is_floating_point T || is_timestamp T = true ->
     is_valid_aggregation T K = Some true /\
     exists R : cpp_type,
       target_type_t T K = Some R /\
       is_integral R || is_floating_point R || is_timestamp R = true) /\
  (forall K' : Kind,
     corresponding_operator_t K' = corresponding_operator_t K -> K' = K).
Proof.
  intro H. destruct K; try discriminate H.
  all: split; [reflexivity|]; split.
  all: try (intros K' HK'; destruct K'; first [reflexivity | discriminate HK']).
  all: intros T HT; unfold is_valid_aggregation.
  - rewrite target_type_SUM.
    split; [destruct T; first [reflexivity | discriminate HT]|].
    eexists; split; [reflexivity|].
    destruct T; first [reflexivity | discriminate HT].
  - rewrite target_type_MIN.
    split; [destruct T; first [reflexivity | discriminate HT]|].
    exists T. split; [reflexivity | exact HT].
  - rewrite target_type_MAX.
    split; [destruct T; first [reflexivity | discriminate HT]|].
    exists T. split; [reflexivity | exact HT].
Qed.

Lemma corresponding_operator_kinds_witness :
  is_dispatched SUM = true /\
  is_valid_aggregation (t_timestamp ts_ns) SUM = Some true.
Proof.
  split.
  - apply (proj1 (corresponding_operator_kinds SUM eq_refl)).
  - apply (proj1 (proj1 (proj2 (corresponding_operator_kinds SUM eq_refl))
                    (t_timestamp ts_ns) eq_refl)).
Defined.

(* ===================================================================== *)
(** ** Further properties of the dispatchers *)
(* ===================================================================== *)

Lemma noexcept_never_thrown {St R : Type} (c : call St R) (s : St)
    (what : string) :
  fst (noexcept c s) <> Thrown what.
Proof.
  unfold noexcept. destruct (c s) as [[r | w | w | ] s']; discriminate.
Qed.

Lemma value_is_dispatched_kind (k : Z) :
  value_is_dispatched k = true ->
  exists K : Kind, Kind_value K = k /\ is_dispatched K = true.
Proof.
  unfold value_is_dispatched, dispatched_kinds.
  cbn [existsb Kind_value]. intro H.
  repeat (apply orb_true_iff in H; destruct H as [H | H]);
    try discriminate H; apply Z.eqb_eq in H; subst k;
    [ exists SUM | exists MIN | exists MAX | exists COUNT | exists MEAN
    | exists MEDIAN | exists QUANTILE | exists ARGMAX | exists ARGMIN ];
    split; reflexivity.
Qed.

Lemma Kind_value_injective (K K' : Kind) :
  Kind_value K = Kind_value K' -> K = K'.
Proof. destruct K, K'; intro H; first [reflexivity | discriminate H]. Qed.

(** X2: no exception leaves [dispatch_source::operator()] (it is
    [noexcept]), whatever the kind value and the body; when the body
    instantiated for a labelled kind throws, the call ends in
    [std::terminate] with the state the body left. *)
Theorem dispatch_source_never_throws {St A R : Type}
    (target : compilation) (Element : cpp_type) (k : Z)
    (g : cpp_type -> Kind -> A -> call St R) (args : A) (s : St) :
  (forall what : string,
     fst (dispatch_source target Element (k, (g, args)) s) <> Thrown what) /\
  (forall (K : Kind) (what : string) (s' : St),
     is_dispatched K = true -> k = Kind_value K ->
     g Element K args s = (Thrown what, s') ->
     dispatch_source target Element (k, (g, args)) s = (Terminated, s')).
Proof.
  split.
  - intro what. unfold dispatch_source. apply noexcept_never_thrown.
  - intros K what s' HK -> Hg.
    unfold dispatch_source. cbn [fst snd]. unfold noexcept at 1.
    rewrite (aggregation_dispatcher_case target _ _ K HK).
    unfold dispatch_aggregation, noexcept. cbn [fst snd].
    rewrite Hg. reflexivity.
Qed.

Lemma dispatch_source_never_throws_witness :
  dispatch_source Host t_float
    (Kind_value MAX,
     (fun (T : cpp_type) (K : Kind) (n : Z) (s : Z) =>
        (@Thrown unit "body failed"%string, s + n), 5)) 1
  = (Terminated, 6).
Proof.
  apply (proj2 (dispatch_source_never_throws Host t_float (Kind_value MAX)
                  (fun T K n s => (@Thrown unit "body failed"%string, s + n)) 5 1)
           MAX "body failed"%string 6 eq_refl eq_refl eq_refl).
Defined.

(** X6: for every value of the kind object, [aggregation_dispatcher]
    invokes at most one body: none when the value has no [case] label, and
    otherwise only the body of the one kind that has this value. *)
Theorem aggregation_dispatcher_invokes_at_most_one {St A R : Type}
    (target : compilation) (k : Z) (f : Kind -> A -> call St R)
    (args : A) (s : St) :
  (value_is_dispatched k = false /\
   fst (snd (aggregation_dispatcher target k (traced f) args ([], s))) = [])
  \/
  (exists K : Kind,
     Kind_value K = k /\ is_dispatched K = true /\
     fst (snd (aggregation_dispatcher target k (traced f) args ([], s))) = [K]
     /\ forall K' : Kind, Kind_value K' = k -> K' = K).
Proof.
  destruct (value_is_dispatched k) eqn:Hk.
  - right. destruct (value_is_dispatched_kind k Hk) as (K & <- & HK).
    exists K. split; [reflexivity|]. split; [exact HK|]. split.
    + rewrite (aggregation_dispatcher_case target _ _ K HK).
      unfold traced. cbn [fst snd app]. now destruct (f K args s).
    + intros K' H. now apply Kind_value_injective.
  - left. split; [reflexivity|].
    rewrite (aggregation_dispatcher_default target _ _ k Hk).
    now destruct target.
Qed.

(** X9: the host and the device compilation of [aggregation_dispatcher]
    give the same result exactly at the values that have a [case] label. *)
Theorem aggregation_dispatcher_host_device {St A R : Type}
    (k : Z) (f : Kind -> A -> call St R) (args : A) (s : St) :
  aggregation_dispatcher Host k f args s
  = aggregation_dispatcher Device k f args s
  <-> value_is_dispatched k = true.
Proof.
  destruct (value_is_dispatched k) eqn:Hk.
  - split; [reflexivity|]. intros _.
    destruct (value_is_dispatched_kind k Hk) as (K & <- & HK).
    now rewrite !aggregation_dispatcher_case.
  - rewrite !aggregation_dispatcher_default by exact Hk.
    split; discriminate.
Qed.

(** X8: [udf_aggregation] keeps the kind, the source text and the output
    type it is given and checks none of them; dispatching on the kind of
    the descriptor reaches the body of that kind when it has a [case]
    label and the [default:] branch otherwise, whatever the source text
    and the declared output type. *)
Theorem udf_aggregation_dispatch {data_type St A R : Type}
    (K : Kind) (user_defined_aggregator : string) (output_type : data_type)
    (target : compilation) (f : Kind -> A -> call St R) (args : A) :
  exists d : udf_aggregation data_type,
    udf_aggregation_ctor K user_defined_aggregator output_type = Returned d /\
    kind (udf_base d) = K /\
    source d = user_defined_aggregator /\
    _output_type d = output_type /\
    aggregation_dispatcher target (Kind_value (kind (udf_base d))) f args
    = if is_dispatched K then f K args else unsupported_aggregation target.
Proof.
  eexists. split; [reflexivity|].
  cbn [udf_base source _output_type kind aggregation_ctor].
  split; [reflexivity|]. split; [reflexivity|]. split; [reflexivity|].
  destruct (is_dispatched K) eqn:HK.
  - now apply aggregation_dispatcher_case.
  - now apply aggregation_dispatcher_default.
Qed.

(** X10: a kind that [is_valid_aggregation] reports valid at some element
    type has a [case] label: dispatching it reaches the body instantiated
    for it, on the host and on the device. *)
Theorem valid_kind_is_dispatched {St A R : Type}
    (T : cpp_type) (K : Kind) (target : compilation)
    (f : Kind -> A -> call St R) (args : A) :
  is_valid_aggregation T K = Some true ->
  is_dispatched K = true /\
  aggregation_dispatcher target (Kind_value K) f args = f K args.
Proof.
  intro H.
  assert (HK : is_dispatched K = true).
  { destruct K; first [reflexivity | discriminate H]. }
  split; [exact HK | now apply aggregation_dispatcher_case].
Qed.

Lemma valid_kind_is_dispatched_witness :
  aggregation_dispatcher Device (Kind_value SUM)
    (fun K (n : Z) (s : Z) => (Returned K, s + n)) 5 1
  = (Returned SUM, 6).
Proof.
  exact (f_equal (fun c => c 1)
           (proj2 (valid_kind_is_dispatched t_float SUM Device
                     (fun K (n : Z) (s : Z) => (Returned K, s + n)) 5
                     eq_refl))).
Defined.
